(** * weather-alerts: the subscription service of [main.py]

    A shallow embedding of the two Flask handlers of [main.py]
    ([subscribe] and [get_users]) and of the three helpers that talk to
    BigQuery ([user_exists], [save_user_to_bigquery],
    [get_users_from_bigquery]), followed by the properties of the
    validation and persistence contract.

    - The request body is the value [request.json] yields: any JSON value,
      [None] included.
    - Python's operators ([in], [==], truthiness, [d[k]], [d.get]) are
      written out on JSON values in module [Py], with the exceptions they
      raise.
    - The BigQuery client is an interface ([BigQueryClient]); the handlers
      run in a state-and-exception monad over a [world] that holds the
      store behind the client and the trace of the calls made to it. *)

From stdpp Require Import gmap strings list.
From Stdlib Require Import ZArith Floats.SpecFloat.

Set Warnings "-register-all".
Local Open Scope Z_scope.

(** ** JSON values *)

(** What [request.json] can be, and what a row of the table holds.  Python
    parses a JSON number to an [int] or to a [float]; a JSON object becomes
    a [dict], whose keys are unique. *)
Inductive json : Type :=
| JNull
| JBool (b : bool)
| JInt (n : Z)
| JFloat (f : spec_float)
| JStr (s : string)
| JArr (l : list json)
| JObj (m : gmap string json).

(** A Python [dict] with string keys. *)
Abbreviation dict := (gmap string json).

(** A row of the table, as [insert_rows_json] takes it and as [dict(row)]
    gives it back: column name to value. *)
Abbreviation Row := (gmap string json).

(** The exceptions the handlers can raise on a request body. *)
Inductive exn : Type := TypeError | KeyError | AttributeError.

Inductive result (A : Type) : Type :=
| Ok (a : A)
| Raise (e : exn).
Arguments Ok {A} a.
Arguments Raise {A} e.

(** ** Python's operators on JSON values *)

Module Py.

(** [bool(v)]: [None], [False], zero, and the empty string, list and dict
    are falsy. *)
Definition truthy (v : json) : bool :=
  match v with
  | JNull => false
  | JBool b => b
  | JInt n => negb (n =? 0)
  | JFloat f => match f with S754_zero _ => false | _ => true end
  | JStr s => negb (String.eqb s "")
  | JArr l => match l with [] => false | _ :: _ => true end
  | JObj m => negb (Nat.eqb (size m) 0)
  end.

(** [v == s] for a [str] literal [s]: only an equal [str] is equal. *)
Definition eq_str (v : json) (s : string) : bool :=
  match v with
  | JStr t => String.eqb t s
  | _ => false
  end.

(** [v in l] for a list [l] of [str] literals. *)
Definition in_strs (v : json) (l : list string) : bool :=
  existsb (eq_str v) l.

(** [key in data] for a [str] [key]: key membership on a dict, element
    membership on a list, substring test on a str; [TypeError] on
    [None], a bool or a number. *)
Definition contains (data : json) (key : string) : result bool :=
  match data with
  | JObj m => Ok (bool_decide (is_Some (m !! key)))
  | JArr l => Ok (existsb (fun e => eq_str e key) l)
  | JStr s => Ok (match String.index 0 key s with Some _ => true | None => false end)
  | JNull | JBool _ | JInt _ | JFloat _ => Raise TypeError
  end.

(** [all(field in data for field in fields)]: stops at the first field
    that is not in [data], or at the first exception. *)
Fixpoint all_in (fields : list string) (data : json) : result bool :=
  match fields with
  | [] => Ok true
  | field :: rest =>
      match contains data field with
      | Ok true => all_in rest data
      | Ok false => Ok false
      | Raise e => Raise e
      end
  end.

(** [data[key]] for a [str] [key]: [KeyError] on a dict without the key,
    [TypeError] on everything that is not a dict. *)
Definition getitem (data : json) (key : string) : result json :=
  match data with
  | JObj m => match m !! key with Some v => Ok v | None => Raise KeyError end
  | _ => Raise TypeError
  end.

(** [d.get(key, default)] on a dict [d]. *)
Definition dict_get (d : gmap string json) (key : string) (default : json) : json :=
  match d !! key with Some v => v | None => default end.

(** [data.get(key, default)]; only a dict has the method. *)
Definition get (data : json) (key : string) (default : json) : result json :=
  match data with
  | JObj m => Ok (dict_get m key default)
  | _ => Raise AttributeError
  end.

(** [isinstance(v, list)]. *)
Definition isinstance_list (v : json) : bool :=
  match v with JArr _ => true | _ => false end.

End Py.

(** ** The BigQuery client *)

(** The three calls [main.py] makes on [client], on a store of type [St]:
    - [query_user_count s user_id]: the [user_count] of
      [SELECT COUNT( * ) ... WHERE user_id = @user_id];
    - [insert_rows_json s rows]: the list of insertion errors and the store
      after the call;
    - [query_all_rows s]: the rows of [SELECT * FROM ...].
    Queries read the store and always come back with a result. *)
Class BigQueryClient (St : Type) : Type := {
  query_user_count : St -> json -> Z;
  insert_rows_json : St -> list Row -> list json * St;
  query_all_rows : St -> list Row;
}.

(** What a handler did to the outside: the calls on [client], and what
    [print] wrote. *)
Inductive event : Type :=
| EvQueryCount (user_id : json)
| EvInsertRows (rows : list Row)
| EvQueryAll
| EvPrint (errors : list json).

(** A response of a handler: [jsonify(body), status]. *)
Record Response : Type := mkResponse { body : json; status : Z }.

(** [jsonify({"error": msg})] and [jsonify({"message": msg})]. *)
Definition error_body (msg : string) : json := JObj {[ "error" := JStr msg ]}.
Definition message_body (msg : string) : json := JObj {[ "message" := JStr msg ]}.

Definition required_fields : list string := ["user_id"; "location"; "notification_method"].
Definition valid_methods : list string := ["email"; "SMS"].
Definition valid_units : list string := ["Celsius"; "Fahrenheit"].

Definition missing_fields_msg : string := "Missing required fields".
Definition duplicate_msg : string := "User ID already exists. Please choose a different one.".
Definition contact_msg : string := "Either email_id or phone number is required.".
Definition invalid_method_msg : string := "Invalid notification method. Choose 'email' or 'SMS'.".
Definition invalid_units_msg : string := "Invalid preferred_units. Choose 'Celsius' or 'Fahrenheit'.".
Definition success_msg : string := "User subscribed successfully!".

(** The inserts among the events of a trace. *)
Fixpoint inserts (t : list event) : list (list Row) :=
  match t with
  | [] => []
  | EvInsertRows rows :: t' => rows :: inserts t'
  | _ :: t' => inserts t'
  end.

Section Handlers.
Context {St : Type} `{!BigQueryClient St}.

(** The store behind [client], and the events so far, oldest first. *)
Record world : Type := mkWorld { store : St; trace : list event }.

Definition log (e : event) (w : world) : world :=
  {| store := store w; trace := trace w ++ [e] |}.

(** Handlers and helpers: a result or an exception, and the world after. *)
Definition M (A : Type) : Type := world -> result A * world.

#[local] Instance M_ret : MRet M := fun A a w => (Ok a, w).
#[local] Instance M_bind : MBind M := fun A B f m w =>
  match m w with
  | (Ok a, w') => f a w'
  | (Raise e, w') => (Raise e, w')
  end.

(** A pure Python expression, which may raise. *)
Definition pure {A : Type} (r : result A) : M A := fun w => (r, w).

(** [user_exists(user_id)] *)
Definition user_exists (user_id : json) : M bool := fun w =>
  let user_count := query_user_count (store w) user_id in
  (Ok (0 <? user_count), log (EvQueryCount user_id) w).

(** [save_user_to_bigquery(...)] *)
Definition save_user_to_bigquery
    (user_id email_id phone_number location notification_method preferred_units : json)
    : M unit := fun w =>
  let rows_to_insert : list Row :=
    [ list_to_map
        [ ("user_id", user_id);
          ("email_id", email_id);
          ("phone_number", phone_number);
          ("location", location);
          ("notification_method", notification_method);
          ("preferred_units", preferred_units) ] ] in
  let '(errors, s') := insert_rows_json (store w) rows_to_insert in
  let w' := {| store := s'; trace := trace w ++ [EvInsertRows rows_to_insert] |} in
  if Py.truthy (JArr errors) then (Ok tt, log (EvPrint errors) w') else (Ok tt, w').

(** [get_users_from_bigquery()] *)
Definition get_users_from_bigquery : M (list json) := fun w =>
  let results := query_all_rows (store w) in
  (Ok (map (fun row => JObj row) results), log EvQueryAll w).

(** [subscribe()], on the body [data = request.json] *)
Definition subscribe (data : json) : M Response :=
  present ← pure (Py.all_in required_fields data);
  if negb present then mret (mkResponse (error_body missing_fields_msg) 400) else
  user_id ← pure (Py.getitem data "user_id");
  taken ← user_exists user_id;
  if (taken : bool) then mret (mkResponse (error_body duplicate_msg) 400) else
  email_id ← pure (Py.get data "email_id" JNull);
  phone_number ← pure (Py.get data "phone_number" JNull);
  if negb (Py.truthy email_id) && negb (Py.truthy phone_number)
  then mret (mkResponse (error_body contact_msg) 400) else
  notification_method ← pure (Py.getitem data "notification_method");
  if negb (Py.isinstance_list notification_method)
     || negb (match notification_method with
              | JArr methods => forallb (fun method => Py.in_strs method valid_methods) methods
              | _ => true
              end)
  then mret (mkResponse (error_body invalid_method_msg) 400) else
  preferred_units ← pure (Py.get data "preferred_units" (JStr "Celsius"));
  if negb (Py.in_strs preferred_units valid_units)
  then mret (mkResponse (error_body invalid_units_msg) 400) else
  location ← pure (Py.getitem data "location");
  _ ← save_user_to_bigquery user_id email_id phone_number location
        notification_method preferred_units;
  mret (mkResponse (message_body success_msg) 201).

(** [get_users()] *)
Definition get_users : M Response :=
  users_data ← get_users_from_bigquery;
  mret (mkResponse (JArr users_data) 200).

End Handlers.

Arguments world St : clear implicits.
Arguments M St A : clear implicits.

(** ** The five checks of [subscribe], one by one *)

(** The conditions of the five [if]s of [subscribe] on a dict body [d],
    each written as the check that has to pass, and the response each one
    sends when it fails. *)
Inductive check : Type :=
| RequiredFields     (* line 24 *)
| FreshUserId        (* line 30 *)
| ContactGiven       (* line 37 *)
| MethodsValid       (* line 43 *)
| UnitsValid.        (* line 48 *)

(** The order in which the service is to apply them. *)
Definition check_order : list check :=
  [RequiredFields; FreshUserId; ContactGiven; MethodsValid; UnitsValid].

Definition error_msg (c : check) : string :=
  match c with
  | RequiredFields => missing_fields_msg
  | FreshUserId => duplicate_msg
  | ContactGiven => contact_msg
  | MethodsValid => invalid_method_msg
  | UnitsValid => invalid_units_msg
  end.

Definition error_response (c : check) : Response :=
  mkResponse (error_body (error_msg c)) 400.

Definition success_response : Response :=
  mkResponse (message_body success_msg) 201.

(** [d.get(key)] on a dict: [None] when the key is absent. *)
Definition field (d : dict) (key : string) : json := Py.dict_get d key JNull.

(** [d.get("preferred_units", "Celsius")]. *)
Definition units_of (d : dict) : json := Py.dict_get d "preferred_units" (JStr "Celsius").

Definition has_required (d : dict) : bool :=
  forallb (fun key => bool_decide (is_Some (d !! key))) required_fields.

Definition contact_given (d : dict) : bool :=
  Py.truthy (field d "email_id") || Py.truthy (field d "phone_number").

Definition methods_valid (d : dict) : bool :=
  match d !! "notification_method" with
  | Some (JArr methods) => forallb (fun method => Py.in_strs method valid_methods) methods
  | _ => false
  end.

Definition units_valid (d : dict) : bool :=
  Py.in_strs (units_of d) valid_units.

(** The row [subscribe] hands to [save_user_to_bigquery] for the body [d]. *)
Definition row_of (d : dict) : Row :=
  list_to_map
    [ ("user_id", field d "user_id");
      ("email_id", field d "email_id");
      ("phone_number", field d "phone_number");
      ("location", field d "location");
      ("notification_method", field d "notification_method");
      ("preferred_units", units_of d) ].

(** No insertion between two worlds: the store is the same and no insert
    was called. *)
Definition no_insertion {St : Type} (w w' : world St) : Prop :=
  store w' = store w /\ inserts (trace w') = inserts (trace w).

Section Checks.
Context {St : Type} `{!BigQueryClient St}.

Definition passes (c : check) (d : dict) (s : St) : bool :=
  match c with
  | RequiredFields => has_required d
  | FreshUserId => negb (0 <? query_user_count s (field d "user_id"))
  | ContactGiven => contact_given d
  | MethodsValid => methods_valid d
  | UnitsValid => units_valid d
  end.

(** The first check of [check_order] that the body fails, if any. *)
Definition first_failing (d : dict) (s : St) : option check :=
  List.find (fun c => negb (passes c d s)) check_order.

(** All five checks pass. *)
Definition passes_validation (d : dict) (s : St) : bool :=
  forallb (fun c => passes c d s) check_order.

(** The world after the insert of [rows], as [save_user_to_bigquery]
    leaves it. *)
Definition saved (rows : list Row) (w : world St) : world St :=
  let '(errors, s') := insert_rows_json (store w) rows in
  let w' := {| store := s'; trace := trace w ++ [EvInsertRows rows] |} in
  if Py.truthy (JArr errors) then log (EvPrint errors) w' else w'.

End Checks.

(** ** An in-memory table behind the client *)

(** A table held in memory, for running the handlers: [rows] is the table,
    [insert_errors] the error lists the coming inserts will report, one per
    call (none left: the insert goes through).  An insert that reports
    errors writes nothing. *)
Module Mem.

Record table : Type := mkTable { rows : list Row; insert_errors : list (list json) }.

(** [WHERE user_id = @user_id], with the parameter typed [STRING]. *)
Definition matches (user_id : json) (row : Row) : bool :=
  match row !! "user_id", user_id with
  | Some (JStr a), JStr b => String.eqb a b
  | _, _ => false
  end.

Definition count (t : table) (user_id : json) : Z :=
  Z.of_nat (length (filter (fun row => matches user_id row = true) (rows t))).

Definition insert (t : table) (new : list Row) : list json * table :=
  match insert_errors t with
  | [] => ([], {| rows := rows t ++ new; insert_errors := [] |})
  | [] :: later => ([], {| rows := rows t ++ new; insert_errors := later |})
  | errors :: later => (errors, {| rows := rows t; insert_errors := later |})
  end.

#[global] Instance client : BigQueryClient table := {
  query_user_count := count;
  insert_rows_json := insert;
  query_all_rows := rows;
}.

(** A world on a table with the given rows, where inserts go through. *)
Definition init (rs : list Row) : world table :=
  {| store := {| rows := rs; insert_errors := [] |}; trace := [] |}.

(** A world on a table with the given rows, whose next insert reports
    [errors]. *)
Definition failing (rs : list Row) (errors : list json) : world table :=
  {| store := {| rows := rs; insert_errors := [errors] |}; trace := [] |}.

End Mem.

(** ** The scenarios of the service, run on the in-memory table *)

Module Scenarios.
Import Mem.

Definition u1_request : dict :=
  list_to_map [ ("user_id", JStr "u1"); ("location", JStr "NYC");
                ("notification_method", JArr [JStr "email"]);
                ("email_id", JStr "a@b.com") ].

Definition u1_row : Row :=
  list_to_map [ ("user_id", JStr "u1"); ("email_id", JStr "a@b.com");
                ("phone_number", JNull); ("location", JStr "NYC");
                ("notification_method", JArr [JStr "email"]);
                ("preferred_units", JStr "Celsius") ].

Definition fax_request : dict :=
  list_to_map [ ("user_id", JStr "u2"); ("location", JStr "LA");
                ("notification_method", JArr [JStr "fax"]) ].

Definition no_location_request : dict :=
  list_to_map [ ("user_id", JStr "u3");
                ("notification_method", JArr [JStr "SMS"]);
                ("phone_number", JStr "555") ].

(** The request of [u1_request] with an empty list of methods, and the
    row it leads to. *)
Definition empty_methods_request : dict :=
  list_to_map [ ("user_id", JStr "u1"); ("location", JStr "NYC");
                ("notification_method", JArr []);
                ("email_id", JStr "a@b.com") ].

Definition empty_methods_row : Row :=
  list_to_map [ ("user_id", JStr "u1"); ("email_id", JStr "a@b.com");
                ("phone_number", JNull); ("location", JStr "NYC");
                ("notification_method", JArr []);
                ("preferred_units", JStr "Celsius") ].

(** A request with the [user_id] of [u1_row] and nothing else. *)
Definition only_user_id_request : dict :=
  list_to_map [ ("user_id", JStr "u1") ].

(** A request with a unit that is not allowed and no way of contact. *)
Definition kelvin_request : dict :=
  list_to_map [ ("user_id", JStr "u6"); ("location", JStr "Oslo");
                ("notification_method", JArr [JStr "email"]);
                ("preferred_units", JStr "Kelvin") ].

(** The same with an [email_id]. *)
Definition kelvin_email_request : dict :=
  <["email_id" := JStr "k@b.com"]> kelvin_request.



(** The error list of an insert that failed. *)
Definition insert_failure : list json :=
  [ JObj (list_to_map [ ("index", JInt 0); ("errors", JArr [JStr "backendError"]) ]) ].

End Scenarios.

(** ** The fields [subscribe] reads *)

(** The keys [subscribe] looks up in the body (lines 23, 27, 34, 35, 41,
    47 and 52); they are also the columns of the row it inserts. *)
Definition known_fields : list string :=
  ["user_id"; "email_id"; "phone_number"; "location"; "notification_method";
   "preferred_units"].

Module Bodies.

(** [Scenarios.u1_request] with a field the service does not know. *)
Definition u1_with_referrer : dict :=
  <["referrer" := JStr "newsletter"]> Scenarios.u1_request.

End Bodies.

(** * Properties *)

Lemma Ok_inj {A : Type} (a b : A) : Ok a = Ok b -> a = b.
Proof. intros Heq. injection Heq as Heq. exact Heq. Qed.

(** ** How [subscribe] runs on a dict body *)

Section SubscribeOnDict.
Context {St : Type} `{!BigQueryClient St}.

Lemma all_in_required (d : dict) :
  Py.all_in required_fields (JObj d) = Ok (has_required d).
Proof.
  unfold has_required, required_fields. cbn [Py.all_in Py.contains forallb].
  repeat (case_bool_decide; cbn [andb]; try reflexivity).
Qed.

Lemma save_user_to_bigquery_saved (d : dict) (w : world St) :
  save_user_to_bigquery (field d "user_id") (field d "email_id")
    (field d "phone_number") (field d "location")
    (field d "notification_method") (units_of d) w
  = (Ok tt, saved [row_of d] w).
Proof.
  unfold save_user_to_bigquery, saved. fold (row_of d).
  destruct (insert_rows_json (store w) [row_of d]) as [errors s'].
  destruct (Py.truthy (JArr errors)); reflexivity.
Qed.

(** The cascade of [subscribe] on a dict, check by check. *)
Lemma subscribe_dict (d : dict) (w : world St) :
  subscribe (JObj d) w =
    if negb (has_required d) then (Ok (error_response RequiredFields), w)
    else
      let w1 := log (EvQueryCount (field d "user_id")) w in
      if 0 <? query_user_count (store w) (field d "user_id")
      then (Ok (error_response FreshUserId), w1)
      else if negb (contact_given d) then (Ok (error_response ContactGiven), w1)
      else if negb (methods_valid d) then (Ok (error_response MethodsValid), w1)
      else if negb (units_valid d) then (Ok (error_response UnitsValid), w1)
      else (Ok success_response, saved [row_of d] w1).
Proof.
  unfold subscribe, mbind, M_bind, pure.
  rewrite all_in_required.
  destruct (has_required d) eqn:Hreq; cbn [negb]; [|reflexivity].
  apply andb_prop in Hreq as [Hu Hreq]. apply andb_prop in Hreq as [Hl Hreq].
  apply andb_prop in Hreq as [Hn _].
  apply bool_decide_eq_true_1 in Hu as [user_id Hu].
  apply bool_decide_eq_true_1 in Hl as [location Hl].
  apply bool_decide_eq_true_1 in Hn as [notification_method Hn].
  assert (Fu : field d "user_id" = user_id)
    by (unfold field, Py.dict_get; rewrite Hu; reflexivity).
  assert (Fl : field d "location" = location)
    by (unfold field, Py.dict_get; rewrite Hl; reflexivity).
  assert (Fn : field d "notification_method" = notification_method)
    by (unfold field, Py.dict_get; rewrite Hn; reflexivity).
  cbn [Py.getitem]. rewrite Hu. unfold user_exists. rewrite Fu.
  destruct (0 <? query_user_count (store w) user_id); [reflexivity|].
  cbn [Py.get]. fold (field d "email_id") (field d "phone_number") (units_of d).
  unfold contact_given. rewrite negb_orb.
  destruct (negb (Py.truthy (field d "email_id")) && negb (Py.truthy (field d "phone_number")));
    [reflexivity|].
  rewrite Hn. unfold methods_valid. rewrite Hn.
  destruct notification_method; cbn [Py.isinstance_list negb orb]; try reflexivity.
  destruct (forallb _ l); cbn [negb]; [|reflexivity].
  unfold units_valid.
  destruct (negb (Py.in_strs (units_of d) valid_units)); [reflexivity|].
  rewrite Hl, <- Fn. subst user_id location.
  rewrite save_user_to_bigquery_saved. reflexivity.
Qed.

Lemma inserts_app (t1 t2 : list event) :
  inserts (t1 ++ t2) = inserts t1 ++ inserts t2.
Proof.
  induction t1 as [|e t1 IH]; [reflexivity|].
  destruct e; cbn [app inserts]; rewrite IH; reflexivity.
Qed.

(** The existence query of [user_exists] is no insertion. *)
Lemma query_no_insertion (user_id : json) (w : world St) :
  no_insertion w (log (EvQueryCount user_id) w).
Proof.
  split; [reflexivity|]. cbn [log trace]. rewrite inserts_app. apply app_nil_r.
Qed.

Lemma no_insertion_refl (w : world St) : no_insertion w w.
Proof. split; reflexivity. Qed.

(** What [save_user_to_bigquery] leaves behind: one insert call, with
    the errors printed when there are some. *)
Lemma saved_trace (rows : list Row) (w : world St) :
  trace (saved rows w)
  = trace w ++ EvInsertRows rows ::
      (let errors := fst (insert_rows_json (store w) rows) in
       if Py.truthy (JArr errors) then [EvPrint errors] else []).
Proof.
  unfold saved. destruct (insert_rows_json (store w) rows) as [errors s'].
  cbn [fst]. destruct (Py.truthy (JArr errors)); cbn [log trace]; [|reflexivity].
  rewrite <- app_assoc. reflexivity.
Qed.

Lemma saved_store (rows : list Row) (w : world St) :
  store (saved rows w) = snd (insert_rows_json (store w) rows).
Proof.
  unfold saved. destruct (insert_rows_json (store w) rows) as [errors s'].
  destruct (Py.truthy (JArr errors)); reflexivity.
Qed.

Lemma saved_inserts (rows : list Row) (w : world St) :
  inserts (trace (saved rows w)) = inserts (trace w) ++ [rows].
Proof.
  rewrite saved_trace, inserts_app. f_equal. cbn [inserts]. f_equal.
  destruct (Py.truthy _); reflexivity.
Qed.

(** [subscribe] on a dict, by the first check that fails. *)
Lemma subscribe_by_first_failing (d : dict) (w : world St) :
  subscribe (JObj d) w =
    match first_failing d (store w) with
    | Some RequiredFields => (Ok (error_response RequiredFields), w)
    | Some c => (Ok (error_response c), log (EvQueryCount (field d "user_id")) w)
    | None => (Ok success_response,
               saved [row_of d] (log (EvQueryCount (field d "user_id")) w))
    end.
Proof.
  rewrite subscribe_dict. unfold first_failing, check_order.
  cbn [List.find passes]. rewrite negb_involutive.
  destruct (has_required d); cbn [negb]; [|reflexivity].
  destruct (0 <? query_user_count (store w) (field d "user_id")); [reflexivity|].
  destruct (contact_given d); cbn [negb]; [|reflexivity].
  destruct (methods_valid d); cbn [negb]; [|reflexivity].
  destruct (units_valid d); reflexivity.
Qed.

(** The message a response carries under ["error"], if any. *)
Lemma error_of_error_response (c : check) :
  match body (error_response c) with
  | JObj m => m !! "error"
  | _ => None
  end = Some (JStr (error_msg c)).
Proof. cbn [error_response body error_body]. apply lookup_singleton_eq. Qed.

Lemma error_response_inj (c c' : check) :
  error_response c = error_response c' -> c = c'.
Proof.
  intros Heq. pose proof (error_of_error_response c) as Hc.
  rewrite Heq, error_of_error_response in Hc.
  destruct c, c'; first [reflexivity | discriminate Hc].
Qed.

Lemma error_response_not_success (c : check) : error_response c <> success_response.
Proof. intros Heq. apply (f_equal status) in Heq. discriminate Heq. Qed.

Lemma has_required_lookups (d : dict) :
  has_required d = true <->
  is_Some (d !! "user_id") /\ is_Some (d !! "location")
  /\ is_Some (d !! "notification_method").
Proof.
  unfold has_required, required_fields. cbn [forallb].
  rewrite !andb_true_iff, !bool_decide_eq_true. tauto.
Qed.

Lemma field_lookup (d : dict) (key : string) (v : json) :
  d !! key = Some v -> field d key = v.
Proof. intros Hv. unfold field, Py.dict_get. rewrite Hv. reflexivity. Qed.

Lemma first_failing_None (d : dict) (s : St) :
  first_failing d s = None <-> passes_validation d s = true.
Proof.
  unfold first_failing, passes_validation.
  induction check_order as [|c cs IH]; cbn [List.find forallb]; [tauto|].
  destruct (passes c d s); cbn [negb andb]; [exact IH|].
  split; discriminate.
Qed.

(** A failing check rejects the request: its error goes out and nothing
    is inserted. *)
Lemma subscribe_rejected (d : dict) (w : world St) (c : check) :
  first_failing d (store w) = Some c ->
  fst (subscribe (JObj d) w) = Ok (error_response c)
  /\ no_insertion w (snd (subscribe (JObj d) w)).
Proof.
  intros Hc. rewrite subscribe_by_first_failing, Hc.
  destruct c; cbn [fst snd]; auto using no_insertion_refl, query_no_insertion.
Qed.

(** With no failing check the row of the request is inserted. *)
Lemma subscribe_accepted (d : dict) (w : world St) :
  first_failing d (store w) = None ->
  fst (subscribe (JObj d) w) = Ok success_response
  /\ inserts (trace (snd (subscribe (JObj d) w))) = inserts (trace w) ++ [[row_of d]].
Proof.
  intros Hc. rewrite subscribe_by_first_failing, Hc. cbn [fst snd].
  split; [reflexivity|]. rewrite saved_inserts. f_equal. apply query_no_insertion.
Qed.

(** ** The claims on [subscribe] *)

(** C3. On every registration request (a dict body), [subscribe] applies
    its checks in the order required fields, fresh user_id, contact
    given, methods valid, units valid: the response is the 400 error of
    the first check that fails (201 when none does), the five errors are
    pairwise distinct, and nothing after the failing check runs: when
    the first check fails the existence query of the second is not
    issued, and when a later one fails the existence query is the only
    call made on the store. *)
Theorem subscribe_first_failing_check_wins (d : dict) (w : world St) :
  fst (subscribe (JObj d) w)
  = Ok (match first_failing d (store w) with
        | Some c => error_response c
        | None => success_response
        end)
  /\ (first_failing d (store w) = Some RequiredFields ->
      snd (subscribe (JObj d) w) = w)
  /\ (forall c, first_failing d (store w) = Some c -> c <> RequiredFields ->
      snd (subscribe (JObj d) w) = log (EvQueryCount (field d "user_id")) w)
  /\ (forall c c', error_response c = error_response c' -> c = c')
  /\ (forall c, status (error_response c) = 400).
Proof.
  rewrite subscribe_by_first_failing.
  repeat split.
  - destruct (first_failing d (store w)) as [[]|]; reflexivity.
  - intros ->. reflexivity.
  - intros c -> Hc. destruct c; [contradiction|reflexivity..].
  - apply error_response_inj.
Qed.

(** C5. A registration request that misses any of [user_id], [location],
    [notification_method] gets the 400 missing-fields response, and the
    world is left as it was: no call on the store, so no insert. *)
Theorem subscribe_missing_required_field (d : dict) (w : world St) :
  d !! "user_id" = None \/ d !! "location" = None
    \/ d !! "notification_method" = None ->
  fst (subscribe (JObj d) w) = Ok (mkResponse (error_body missing_fields_msg) 400)
  /\ snd (subscribe (JObj d) w) = w
  /\ no_insertion w (snd (subscribe (JObj d) w)).
Proof.
  intros Hmiss. rewrite subscribe_dict.
  assert (Hreq : has_required d = false).
  { apply not_true_is_false. rewrite has_required_lookups.
    intros (Hu & Hl & Hn).
    destruct Hmiss as [Hm|[Hm|Hm]]; rewrite Hm in *;
      eapply is_Some_None; eassumption. }
  rewrite Hreq. cbn [negb fst snd]. auto using no_insertion_refl.
Qed.

(** C10. On the body [None] (the body of a request without a JSON
    object), the membership test of [subscribe] raises: the handler ends
    in a [TypeError] and sends no response, a 400 included. *)
Theorem subscribe_raises_on_null_body (w : world St) :
  subscribe JNull w = (Raise TypeError, w)
  /\ (forall resp, fst (subscribe JNull w) <> Ok resp).
Proof. split; [reflexivity|]. intros resp Heq. discriminate Heq. Qed.

(** C2. On a registration request that passes the five checks,
    [subscribe] sends the 201 success response whatever the insert
    reports: the error list of [insert_rows_json] is printed when it is
    not empty, and has no part in the response. *)
Theorem subscribe_success_despite_insert_errors
    (d : dict) (w : world St) (errors : list json) (s' : St) :
  passes_validation d (store w) = true ->
  insert_rows_json (store w) [row_of d] = (errors, s') ->
  fst (subscribe (JObj d) w) = Ok (mkResponse (message_body success_msg) 201)
  /\ trace (snd (subscribe (JObj d) w))
     = trace w ++ [EvQueryCount (field d "user_id"); EvInsertRows [row_of d]]
         ++ (if Py.truthy (JArr errors) then [EvPrint errors] else [])
  /\ store (snd (subscribe (JObj d) w)) = s'.
Proof.
  intros Hpass Hins. rewrite subscribe_by_first_failing.
  assert (Hnone : first_failing d (store w) = None).
  { unfold passes_validation, check_order in Hpass. cbn [forallb] in Hpass.
    unfold first_failing, check_order. cbn [List.find].
    repeat (apply andb_prop in Hpass as [-> Hpass]). reflexivity. }
  rewrite Hnone. cbn [fst snd].
  rewrite saved_trace, saved_store. cbn [log store trace]. rewrite Hins.
  cbn [fst snd]. rewrite <- app_assoc. auto.
Qed.

(** C4, as amended. On a registration request that carries the three
    required fields and whose [user_id] is already in the store (the
    count query on that [user_id] gives more than 0), [subscribe] sends
    the 400 duplicate-id response, having made the count query and
    nothing else: no row is inserted. *)
Theorem subscribe_duplicate_user_id (d : dict) (w : world St) (user_id : json) :
  d !! "user_id" = Some user_id ->
  is_Some (d !! "location") ->
  is_Some (d !! "notification_method") ->
  0 < query_user_count (store w) user_id ->
  user_exists user_id w = (Ok true, log (EvQueryCount user_id) w)
  /\ fst (subscribe (JObj d) w) = Ok (mkResponse (error_body duplicate_msg) 400)
  /\ snd (subscribe (JObj d) w) = log (EvQueryCount user_id) w
  /\ no_insertion w (snd (subscribe (JObj d) w)).
Proof.
  intros Hu Hl Hn Hcount. apply Z.ltb_lt in Hcount.
  split; [unfold user_exists; rewrite Hcount; reflexivity|].
  rewrite subscribe_dict.
  assert (Hreq : has_required d = true)
    by (apply has_required_lookups; rewrite Hu; eauto).
  rewrite Hreq, (field_lookup _ _ _ Hu), Hcount. cbn [negb fst snd].
  auto using query_no_insertion.
Qed.

(** C6. A registration request with neither [email_id] nor
    [phone_number] gets a 400 response, that of one of the first three
    checks (the contact error when the first two pass), and no row is
    inserted. *)
Theorem subscribe_without_contact (d : dict) (w : world St) :
  d !! "email_id" = None ->
  d !! "phone_number" = None ->
  exists c,
    fst (subscribe (JObj d) w) = Ok (error_response c)
    /\ status (error_response c) = 400
    /\ In c [RequiredFields; FreshUserId; ContactGiven]
    /\ no_insertion w (snd (subscribe (JObj d) w)).
Proof.
  intros He Hp.
  assert (Hcontact : contact_given d = false)
    by (unfold contact_given, field, Py.dict_get; rewrite He, Hp; reflexivity).
  assert (Hfirst : exists c, first_failing d (store w) = Some c
                     /\ In c [RequiredFields; FreshUserId; ContactGiven]).
  { unfold first_failing, check_order. cbn [List.find passes]. rewrite Hcontact.
    destruct (has_required d); cbn [negb]; [|exists RequiredFields; cbn [In]; auto].
    destruct (negb (0 <? _)); cbn [negb];
      [exists ContactGiven|exists FreshUserId]; cbn [In]; auto. }
  destruct Hfirst as (c & Hfirst & Hin). exists c.
  destruct (subscribe_rejected d w c Hfirst) as [Hresp Hno].
  split; [exact Hresp|]. split; [reflexivity|]. split; [exact Hin|exact Hno].
Qed.

(** C7, as amended. When a registration request omits
    [preferred_units], every row [subscribe] hands to the store has
    [preferred_units] equal to ["Celsius"], and such a row is handed over
    when the first four checks pass.  When [preferred_units] is present
    and is neither ["Celsius"] nor ["Fahrenheit"], the response is a 400
    error and no row is inserted; the error is the invalid-units one
    when the first four checks pass. *)
Theorem subscribe_preferred_units (d : dict) (w : world St) :
  (d !! "preferred_units" = None ->
     (exists new,
        inserts (trace (snd (subscribe (JObj d) w))) = inserts (trace w) ++ new
        /\ (forall rows row, In rows new -> In row rows ->
              row !! "preferred_units" = Some (JStr "Celsius")))
     /\ (forallb (fun c => passes c d (store w))
                 [RequiredFields; FreshUserId; ContactGiven; MethodsValid] = true ->
         fst (subscribe (JObj d) w) = Ok success_response
         /\ inserts (trace (snd (subscribe (JObj d) w)))
            = inserts (trace w) ++ [[row_of d]]))
  /\ (forall units,
       d !! "preferred_units" = Some units ->
       Py.in_strs units valid_units = false ->
       exists c,
         fst (subscribe (JObj d) w) = Ok (error_response c)
         /\ status (error_response c) = 400
         /\ no_insertion w (snd (subscribe (JObj d) w))
         /\ (forallb (fun c => passes c d (store w))
                     [RequiredFields; FreshUserId; ContactGiven; MethodsValid] = true ->
             c = UnitsValid)).
Proof.
  destruct (first_failing d (store w)) as [c|] eqn:Hfirst.
  - (* rejected by [c] *)
    destruct (subscribe_rejected d w c Hfirst) as [Hresp Hno].
    assert (Hfour : forallb (fun c => passes c d (store w))
              [RequiredFields; FreshUserId; ContactGiven; MethodsValid] = true ->
            c = UnitsValid).
    { intros Hpass. cbn [forallb] in Hpass.
      repeat (apply andb_prop in Hpass as [? Hpass]).
      unfold first_failing, check_order in Hfirst. cbn [List.find] in Hfirst.
      repeat match goal with
             | H : passes _ d (store w) = true |- _ => rewrite H in Hfirst; clear H
             end.
      cbn [negb] in Hfirst.
      destruct (passes UnitsValid d (store w)); cbn [negb] in Hfirst; congruence. }
    split.
    + intros Hnone. split.
      * exists []. rewrite app_nil_r. split; [apply Hno|intros ? ? []].
      * intros Hpass. specialize (Hfour Hpass). subst c. exfalso.
        unfold first_failing, check_order in Hfirst. cbn [List.find passes] in Hfirst.
        assert (Hvalid : units_valid d = true)
          by (unfold units_valid, units_of, Py.dict_get; rewrite Hnone; reflexivity).
        rewrite Hvalid in Hfirst.
        repeat match type of Hfirst with
               | (if ?b then _ else _) = _ => destruct b; try discriminate Hfirst
               end.
    + intros units Hsome Hbad. exists c.
      split; [exact Hresp|]. split; [reflexivity|]. split; [exact Hno|exact Hfour].
  - (* accepted *)
    destruct (subscribe_accepted d w Hfirst) as [Hresp Hins].
    apply first_failing_None in Hfirst.
    unfold passes_validation, check_order in Hfirst. cbn [forallb passes] in Hfirst.
    repeat (apply andb_prop in Hfirst as [? Hfirst]).
    split.
    + intros Hnone. split; [|auto].
      exists [[row_of d]]. split; [exact Hins|].
      intros rows row [<-|[]] [<-|[]].
      unfold row_of, units_of, Py.dict_get. rewrite Hnone. reflexivity.
    + intros units Hsome Hbad. exfalso.
      assert (Hvalid : units_valid d = false)
        by (unfold units_valid, units_of, Py.dict_get; rewrite Hsome; exact Hbad).
      congruence.
Qed.


End SubscribeOnDict.

(** ** The claims on the empty list of methods and on [get_users] *)

(** What holds of the methods check: a request that is accepted has a list
    under [notification_method], and every element of it is ["email"] or
    ["SMS"].  The list may be empty. *)
Lemma subscribe_success_methods {St : Type} `{!BigQueryClient St}
    (d : dict) (w : world St) :
  fst (subscribe (JObj d) w) = Ok success_response ->
  exists methods,
    d !! "notification_method" = Some (JArr methods)
    /\ Forall (fun method => method = JStr "email" \/ method = JStr "SMS") methods.
Proof.
  intros Hok. destruct (first_failing d (store w)) as [c|] eqn:Hfirst.
  - destruct (subscribe_rejected d w c Hfirst) as [Hresp _].
    rewrite Hresp in Hok. apply Ok_inj in Hok.
    destruct (error_response_not_success _ Hok).
  - apply first_failing_None in Hfirst.
    unfold passes_validation, check_order in Hfirst. cbn [forallb passes] in Hfirst.
    repeat (apply andb_prop in Hfirst as [? Hfirst]).
    unfold methods_valid in *.
    destruct (d !! "notification_method") as [[| | | | |methods|]|]; try discriminate.
    exists methods. split; [reflexivity|].
    apply Forall_forall. intros method Hin.
    match goal with H : forallb _ methods = true |- _ => rename H into Hall end.
    rewrite forallb_forall in Hall. apply list_elem_of_In in Hin.
    specialize (Hall method Hin).
    unfold Py.in_strs, valid_methods in Hall. cbn [existsb] in Hall.
    destruct method; try discriminate Hall. cbn [Py.eq_str] in Hall.
    rewrite orb_false_r in Hall. apply orb_prop in Hall as [Heq|Heq];
      apply String.eqb_eq in Heq; subst; auto.
Qed.

(** C1, where the code parts from it. The request
    [{"user_id": "u1", "location": "NYC", "notification_method": [],
      "email_id": "a@b.com"}]
    on an empty table: [subscribe] sends 201 and inserts a row whose
    [notification_method] is the empty list, where a 400
    invalid-notification-method error and no insertion are expected. *)
Theorem subscribe_accepts_empty_notification_method :
  Scenarios.empty_methods_request !! "notification_method" = Some (JArr [])
  /\ subscribe (JObj Scenarios.empty_methods_request) (Mem.init [])
     = (Ok (mkResponse (message_body success_msg) 201),
        {| store := {| Mem.rows := [Scenarios.empty_methods_row];
                       Mem.insert_errors := [] |};
           trace := [EvQueryCount (JStr "u1");
                     EvInsertRows [Scenarios.empty_methods_row]] |})
  /\ fst (subscribe (JObj Scenarios.empty_methods_request) (Mem.init []))
     <> Ok (mkResponse (error_body invalid_method_msg) 400).
Proof.
  split; [reflexivity|]. split; [vm_compute; reflexivity|].
  intros Heq. apply (f_equal (fun r => match r with
                                       | Ok resp => status resp
                                       | Raise _ => 0
                                       end)) in Heq.
  vm_compute in Heq. discriminate Heq.
Qed.

(** C8. [get_users] is a read: it sends back, with status 200, every row
    the store yields, each as the dict of all its columns; it leaves the
    store as it was and inserts nothing, so a second call right after
    sends back the same records.  On the in-memory table, every row of
    the table is in the response. *)
Theorem get_users_pure_read :
  (forall (St : Type) (client : BigQueryClient St) (w : world St),
     fst (get_users w)
     = Ok (mkResponse (JArr (map (fun row => JObj row) (query_all_rows (store w)))) 200)
     /\ store (snd (get_users w)) = store w
     /\ inserts (trace (snd (get_users w))) = inserts (trace w)
     /\ fst (get_users (snd (get_users w))) = fst (get_users w))
  /\ (forall (t : Mem.table) (tr : list event) (row : Row),
      In row (Mem.rows t) ->
      exists users,
        fst (get_users {| store := t; trace := tr |}) = Ok (mkResponse (JArr users) 200)
        /\ In (JObj row) users).
Proof.
  split.
  - intros St client w.
    split; [reflexivity|]. split; [reflexivity|]. split; [|reflexivity].
    change (snd (get_users w)) with (log EvQueryAll w). cbn [log trace].
    rewrite inserts_app. apply app_nil_r.
  - intros t tr row Hin. eexists. split; [reflexivity|].
    apply (in_map (fun row => JObj row)). exact Hin.
Qed.

(** ** The in-memory table counts by exact match *)

Lemma Mem_count_exact_match (t : Mem.table) (u : string) :
  0 < query_user_count t (JStr u) <->
  exists row, In row (Mem.rows t) /\ row !! "user_id" = Some (JStr u).
Proof.
  cbn [query_user_count Mem.client]. unfold Mem.count.
  destruct (filter _ (Mem.rows t)) as [|row rest] eqn:Hfilter.
  - split; [cbn; lia|]. intros (row & Hin & Hrow). exfalso.
    assert (Hel : row ∈ filter (fun row => Mem.matches (JStr u) row = true) (Mem.rows t)).
    { apply list_elem_of_filter. split; [|apply list_elem_of_In; exact Hin].
      unfold Mem.matches. rewrite Hrow. apply String.eqb_refl. }
    rewrite Hfilter in Hel. inversion Hel.
  - split; [intros _|intros _; cbn [length]; lia].
    assert (Hel : row ∈ filter (fun row => Mem.matches (JStr u) row = true) (Mem.rows t))
      by (rewrite Hfilter; left).
    apply list_elem_of_filter in Hel as [Hm Hin]. exists row.
    split; [apply list_elem_of_In; exact Hin|].
    unfold Mem.matches in Hm.
    destruct (row !! "user_id") as [[| | | |a| |]|]; try discriminate Hm.
    apply String.eqb_eq in Hm. subst. reflexivity.
Qed.

(** ** The claims at concrete requests *)

Section Concrete.
Import Scenarios.

(** An insert that reports errors: the response is 201 all the same. *)
Lemma subscribe_success_despite_insert_errors_witness :
  passes_validation u1_request (store (Mem.failing [] insert_failure)) = true
  /\ insert_rows_json (store (Mem.failing [] insert_failure)) [row_of u1_request]
     = (insert_failure, Mem.mkTable [] [])
  /\ Py.truthy (JArr insert_failure) = true
  /\ (fst (subscribe (JObj u1_request) (Mem.failing [] insert_failure))
      = Ok (mkResponse (message_body success_msg) 201)
      /\ trace (snd (subscribe (JObj u1_request) (Mem.failing [] insert_failure)))
         = trace (Mem.failing [] insert_failure)
             ++ [EvQueryCount (field u1_request "user_id");
                 EvInsertRows [row_of u1_request]]
             ++ (if Py.truthy (JArr insert_failure)
                 then [EvPrint insert_failure] else [])
      /\ store (snd (subscribe (JObj u1_request) (Mem.failing [] insert_failure)))
         = Mem.mkTable [] []).
Proof.
  split; [vm_compute; reflexivity|]. split; [vm_compute; reflexivity|].
  split; [reflexivity|].
  apply (subscribe_success_despite_insert_errors u1_request
           (Mem.failing [] insert_failure) insert_failure (Mem.mkTable [] []));
    vm_compute; reflexivity.
Defined.

(** A request without [location]: the first check fails and the world
    is left as it was. *)
Lemma subscribe_first_failing_check_wins_witness :
  first_failing no_location_request (store (Mem.init [])) = Some RequiredFields
  /\ snd (subscribe (JObj no_location_request) (Mem.init [])) = Mem.init [].
Proof.
  split; [vm_compute; reflexivity|].
  apply (subscribe_first_failing_check_wins no_location_request (Mem.init [])).
  vm_compute; reflexivity.
Defined.

Lemma subscribe_missing_required_field_witness :
  no_location_request !! "location" = None
  /\ fst (subscribe (JObj no_location_request) (Mem.init []))
     = Ok (mkResponse (error_body missing_fields_msg) 400)
  /\ snd (subscribe (JObj no_location_request) (Mem.init [])) = Mem.init []
  /\ no_insertion (Mem.init []) (snd (subscribe (JObj no_location_request) (Mem.init []))).
Proof.
  split; [vm_compute; reflexivity|].
  apply (subscribe_missing_required_field no_location_request (Mem.init [])).
  right; left. vm_compute; reflexivity.
Defined.

(** C4 as stated fails: the [user_id] is in the table, and the response
    is the missing-fields error, not the duplicate-id one. *)
Lemma subscribe_duplicate_user_id_counterexample :
  only_user_id_request !! "user_id" = Some (JStr "u1")
  /\ 0 < query_user_count (store (Mem.init [u1_row])) (JStr "u1")
  /\ fst (subscribe (JObj only_user_id_request) (Mem.init [u1_row]))
     = Ok (mkResponse (error_body missing_fields_msg) 400)
  /\ fst (subscribe (JObj only_user_id_request) (Mem.init [u1_row]))
     <> Ok (mkResponse (error_body duplicate_msg) 400).
Proof.
  assert (Hresp : fst (subscribe (JObj only_user_id_request) (Mem.init [u1_row]))
                  = Ok (error_response RequiredFields))
    by (vm_compute; reflexivity).
  split; [vm_compute; reflexivity|]. split; [vm_compute; reflexivity|].
  split; [exact Hresp|]. rewrite Hresp.
  change (mkResponse (error_body duplicate_msg) 400) with (error_response FreshUserId).
  intros Heq%Ok_inj%error_response_inj. discriminate Heq.
Qed.

Lemma subscribe_duplicate_user_id_witness :
  u1_request !! "user_id" = Some (JStr "u1")
  /\ 0 < query_user_count (store (Mem.init [u1_row])) (JStr "u1")
  /\ (user_exists (JStr "u1") (Mem.init [u1_row])
      = (Ok true, log (EvQueryCount (JStr "u1")) (Mem.init [u1_row]))
      /\ fst (subscribe (JObj u1_request) (Mem.init [u1_row]))
         = Ok (mkResponse (error_body duplicate_msg) 400)
      /\ snd (subscribe (JObj u1_request) (Mem.init [u1_row]))
         = log (EvQueryCount (JStr "u1")) (Mem.init [u1_row])
      /\ no_insertion (Mem.init [u1_row])
           (snd (subscribe (JObj u1_request) (Mem.init [u1_row])))).
Proof.
  split; [vm_compute; reflexivity|]. split; [vm_compute; reflexivity|].
  apply (subscribe_duplicate_user_id u1_request (Mem.init [u1_row]) (JStr "u1")).
  - vm_compute; reflexivity.
  - exists (JStr "NYC"). vm_compute; reflexivity.
  - exists (JArr [JStr "email"]). vm_compute; reflexivity.
  - vm_compute; reflexivity.
Defined.

Lemma subscribe_without_contact_witness :
  fax_request !! "email_id" = None
  /\ fax_request !! "phone_number" = None
  /\ exists c,
       fst (subscribe (JObj fax_request) (Mem.init [])) = Ok (error_response c)
       /\ status (error_response c) = 400
       /\ In c [RequiredFields; FreshUserId; ContactGiven]
       /\ no_insertion (Mem.init []) (snd (subscribe (JObj fax_request) (Mem.init []))).
Proof.
  split; [vm_compute; reflexivity|]. split; [vm_compute; reflexivity|].
  apply (subscribe_without_contact fax_request (Mem.init [])); vm_compute; reflexivity.
Defined.

(** C7 as stated fails: [preferred_units] is there and is not allowed,
    and the response is the contact error, not the invalid-units one. *)
Lemma subscribe_preferred_units_counterexample :
  kelvin_request !! "preferred_units" = Some (JStr "Kelvin")
  /\ Py.in_strs (JStr "Kelvin") valid_units = false
  /\ fst (subscribe (JObj kelvin_request) (Mem.init []))
     = Ok (mkResponse (error_body contact_msg) 400)
  /\ fst (subscribe (JObj kelvin_request) (Mem.init []))
     <> Ok (mkResponse (error_body invalid_units_msg) 400).
Proof.
  assert (Hresp : fst (subscribe (JObj kelvin_request) (Mem.init []))
                  = Ok (error_response ContactGiven))
    by (vm_compute; reflexivity).
  split; [vm_compute; reflexivity|]. split; [reflexivity|].
  split; [exact Hresp|]. rewrite Hresp.
  change (mkResponse (error_body invalid_units_msg) 400) with (error_response UnitsValid).
  intros Heq%Ok_inj%error_response_inj. discriminate Heq.
Qed.

(** The default unit reaches the store, and a unit that is not allowed
    is refused once the earlier checks have passed. *)
Lemma subscribe_preferred_units_witness :
  (u1_request !! "preferred_units" = None
   /\ forallb (fun c => passes c u1_request (store (Mem.init [])))
        [RequiredFields; FreshUserId; ContactGiven; MethodsValid] = true
   /\ fst (subscribe (JObj u1_request) (Mem.init [])) = Ok success_response
   /\ inserts (trace (snd (subscribe (JObj u1_request) (Mem.init []))))
      = inserts (trace (Mem.init [])) ++ [[row_of u1_request]]
   /\ row_of u1_request !! "preferred_units" = Some (JStr "Celsius"))
  /\ (kelvin_email_request !! "preferred_units" = Some (JStr "Kelvin")
      /\ Py.in_strs (JStr "Kelvin") valid_units = false
      /\ exists c,
           fst (subscribe (JObj kelvin_email_request) (Mem.init []))
           = Ok (error_response c)
           /\ status (error_response c) = 400
           /\ no_insertion (Mem.init [])
                (snd (subscribe (JObj kelvin_email_request) (Mem.init [])))
           /\ c = UnitsValid).
Proof.
  split.
  - destruct (subscribe_preferred_units u1_request (Mem.init [])) as [Homit _].
    assert (Hnone : u1_request !! "preferred_units" = None) by (vm_compute; reflexivity).
    assert (Hpass : forallb (fun c => passes c u1_request (store (Mem.init [])))
              [RequiredFields; FreshUserId; ContactGiven; MethodsValid] = true)
      by (vm_compute; reflexivity).
    destruct (Homit Hnone) as [_ Hfour]. destruct (Hfour Hpass) as [Hresp Hins].
    split; [exact Hnone|]. split; [exact Hpass|]. split; [exact Hresp|].
    split; [exact Hins|]. vm_compute; reflexivity.
  - destruct (subscribe_preferred_units kelvin_email_request (Mem.init [])) as [_ Hbad].
    assert (Hsome : kelvin_email_request !! "preferred_units" = Some (JStr "Kelvin"))
      by (vm_compute; reflexivity).
    assert (Hno : Py.in_strs (JStr "Kelvin") valid_units = false) by reflexivity.
    destruct (Hbad (JStr "Kelvin") Hsome Hno) as (c & Hresp & Hstatus & Hins & Hfour).
    split; [exact Hsome|]. split; [exact Hno|]. exists c.
    split; [exact Hresp|]. split; [exact Hstatus|]. split; [exact Hins|].
    apply Hfour. vm_compute; reflexivity.
Defined.

Lemma get_users_pure_read_witness :
  In u1_row (Mem.rows (Mem.mkTable [u1_row] []))
  /\ exists users,
       fst (get_users {| store := Mem.mkTable [u1_row] []; trace := [] |})
       = Ok (mkResponse (JArr users) 200)
       /\ In (JObj u1_row) users.
Proof.
  split; [left; reflexivity|].
  apply (proj2 get_users_pure_read (Mem.mkTable [u1_row] []) [] u1_row).
  left; reflexivity.
Defined.


End Concrete.

(** ** Beyond the validation order: bodies, calls and stored rows *)

Section Bodies_and_calls.
Context {St : Type} `{!BigQueryClient St}.

(** The membership test can only raise a [TypeError]. *)
Lemma all_in_raise (fields : list string) (data : json) (e : exn) :
  Py.all_in fields data = Raise e -> e = TypeError.
Proof.
  induction fields as [|key rest IH]; cbn [Py.all_in]; [discriminate|].
  destruct (Py.contains data key) as [[|]|e'] eqn:Hc; [exact IH|discriminate|].
  intros [= <-]. destruct data; cbn [Py.contains] in Hc; congruence.
Qed.

(** [subscribe] on a body that is not a dict: the world is left alone, and
    the membership test decides between the missing-fields response and a
    [TypeError] (raised by the test itself, or by [data["user_id"]]). *)
Lemma subscribe_non_dict (data : json) (w : world St) :
  (forall d, data <> JObj d) ->
  subscribe data w
  = (match Py.all_in required_fields data with
     | Ok false => Ok (error_response RequiredFields)
     | _ => Raise TypeError
     end, w).
Proof.
  intros Hnot. unfold subscribe, mbind, M_bind, pure.
  destruct (Py.all_in required_fields data) as [[|]|e] eqn:Hall; cbn [negb].
  - destruct data; try reflexivity. destruct (Hnot m eq_refl).
  - reflexivity.
  - apply all_in_raise in Hall. subst e. reflexivity.
Qed.

Lemma get_users_response (w : world St) :
  fst (get_users w)
  = Ok (mkResponse (JArr (map (fun row => JObj row) (query_all_rows (store w)))) 200).
Proof. reflexivity. Qed.

(** The response of [subscribe] and the store it leaves depend on the
    world through the store alone. *)
Lemma subscribe_store_only (data : json) (w1 w2 : world St) :
  store w1 = store w2 ->
  fst (subscribe data w1) = fst (subscribe data w2)
  /\ store (snd (subscribe data w1)) = store (snd (subscribe data w2)).
Proof.
  intros Hstore.
  destruct data as [| | | | | |d];
    try (rewrite !subscribe_non_dict by (intros d; discriminate);
         cbn [fst snd]; auto).
  rewrite !subscribe_by_first_failing, Hstore.
  destruct (first_failing d (store w2)) as [[]|]; cbn [fst snd log store]; auto.
  rewrite !saved_store. cbn [log store]. rewrite Hstore. auto.
Qed.

(** Two dict bodies with the same required fields, the same
    [preferred_units] and the same [.get] of the contact fields run
    alike. *)
Lemma subscribe_same_reads (d1 d2 : dict) (w : world St) :
  d1 !! "user_id" = d2 !! "user_id" ->
  d1 !! "location" = d2 !! "location" ->
  d1 !! "notification_method" = d2 !! "notification_method" ->
  d1 !! "preferred_units" = d2 !! "preferred_units" ->
  field d1 "email_id" = field d2 "email_id" ->
  field d1 "phone_number" = field d2 "phone_number" ->
  subscribe (JObj d1) w = subscribe (JObj d2) w.
Proof.
  intros Hu Hl Hn Hp He Hph.
  assert (Hreq : has_required d1 = has_required d2)
    by (unfold has_required, required_fields; cbn [forallb]; rewrite Hu, Hl, Hn; reflexivity).
  assert (Fu : field d1 "user_id" = field d2 "user_id")
    by (unfold field, Py.dict_get; rewrite Hu; reflexivity).
  assert (Fl : field d1 "location" = field d2 "location")
    by (unfold field, Py.dict_get; rewrite Hl; reflexivity).
  assert (Fn : field d1 "notification_method" = field d2 "notification_method")
    by (unfold field, Py.dict_get; rewrite Hn; reflexivity).
  assert (Funits : units_of d1 = units_of d2)
    by (unfold units_of, Py.dict_get; rewrite Hp; reflexivity).
  assert (Hc : contact_given d1 = contact_given d2)
    by (unfold contact_given; rewrite He, Hph; reflexivity).
  assert (Hm : methods_valid d1 = methods_valid d2)
    by (unfold methods_valid; rewrite Hn; reflexivity).
  assert (Hv : units_valid d1 = units_valid d2)
    by (unfold units_valid; rewrite Funits; reflexivity).
  assert (Hrow : row_of d1 = row_of d2)
    by (unfold row_of; rewrite Fu, Fl, Fn, Funits, He, Hph; reflexivity).
  rewrite !subscribe_dict, Hreq, Fu, Hc, Hm, Hv, Hrow. reflexivity.
Qed.

(** X1. A body that is not a JSON object never reaches the store:
    [subscribe] leaves the world as it was, and either raises a
    [TypeError] or sends the 400 missing-fields response; it sends that
    response exactly when the membership test comes out false (a list or
    a string that lacks one of the three names). *)
Theorem subscribe_non_object_body (data : json) (w : world St) :
  (forall d, data <> JObj d) ->
  snd (subscribe data w) = w
  /\ (fst (subscribe data w) = Raise TypeError
      \/ fst (subscribe data w) = Ok (mkResponse (error_body missing_fields_msg) 400))
  /\ (fst (subscribe data w) = Ok (mkResponse (error_body missing_fields_msg) 400)
      <-> Py.all_in required_fields data = Ok false).
Proof.
  intros Hnot. rewrite (subscribe_non_dict data w Hnot). cbn [fst snd].
  split; [reflexivity|].
  destruct (Py.all_in required_fields data) as [[|]|e]; (split; [auto|]);
    split; first [discriminate | reflexivity].
Qed.


(** X3. [subscribe] answers 201 exactly when the five checks pass, and it
    calls the insert exactly then, once, with the one row of the
    request. *)
Theorem subscribe_inserts_iff_accepts (d : dict) (w : world St) :
  (fst (subscribe (JObj d) w) = Ok success_response
   <-> passes_validation d (store w) = true)
  /\ inserts (trace (snd (subscribe (JObj d) w)))
     = inserts (trace w)
         ++ (if passes_validation d (store w) then [[row_of d]] else []).
Proof.
  destruct (first_failing d (store w)) as [c|] eqn:Hfirst.
  - destruct (subscribe_rejected d w c Hfirst) as [Hresp [_ Hins]].
    assert (Hpass : passes_validation d (store w) = false).
    { apply not_true_is_false. rewrite <- first_failing_None. congruence. }
    rewrite Hresp, Hpass, Hins, app_nil_r. split; [|reflexivity].
    split; [|discriminate].
    intros Heq%Ok_inj. destruct (error_response_not_success _ Heq).
  - destruct (subscribe_accepted d w Hfirst) as [Hresp Hins].
    apply first_failing_None in Hfirst. rewrite Hresp, Hfirst, Hins. tauto.
Qed.

(** X4. The row of an accepted request has the six columns and no other:
    [user_id], [location] and [notification_method] as they are in the
    body, [email_id] and [phone_number] as they are or null when absent,
    [preferred_units] as it is or ["Celsius"] when absent. *)
Theorem subscribe_stored_row (d : dict) (w : world St) :
  passes_validation d (store w) = true ->
  exists row,
    inserts (trace (snd (subscribe (JObj d) w))) = inserts (trace w) ++ [[row]]
    /\ dom row = list_to_set known_fields
    /\ row !! "user_id" = d !! "user_id"
    /\ row !! "location" = d !! "location"
    /\ row !! "notification_method" = d !! "notification_method"
    /\ row !! "email_id" = Some (Py.dict_get d "email_id" JNull)
    /\ row !! "phone_number" = Some (Py.dict_get d "phone_number" JNull)
    /\ row !! "preferred_units" = Some (Py.dict_get d "preferred_units" (JStr "Celsius")).
Proof.
  intros Hpass. exists (row_of d).
  pose proof (proj2 (first_failing_None d (store w)) Hpass) as Hfirst.
  destruct (subscribe_accepted d w Hfirst) as [_ Hins].
  unfold passes_validation, check_order in Hpass. cbn [forallb passes] in Hpass.
  apply andb_prop in Hpass as [Hreq _].
  apply has_required_lookups in Hreq as ([u Hu] & [l Hl] & [n Hn]).
  split; [exact Hins|]. split.
  { unfold row_of. rewrite dom_list_to_map_L. reflexivity. }
  rewrite Hu, Hl, Hn.
  rewrite <- (field_lookup _ _ _ Hu), <- (field_lookup _ _ _ Hl), <- (field_lookup _ _ _ Hn).
  repeat split; reflexivity.
Qed.

(** X5. [subscribe] reads the six known fields and nothing else of the
    body: two objects that agree on them get the same response and leave
    the same world, so a field the service does not know is ignored and
    never stored. *)
Theorem subscribe_reads_known_fields (d1 d2 : dict) (w : world St) :
  (forall key, In key known_fields -> d1 !! key = d2 !! key) ->
  subscribe (JObj d1) w = subscribe (JObj d2) w.
Proof.
  intros Hsame.
  apply subscribe_same_reads; try (apply Hsame; cbn [known_fields In]; tauto);
    unfold field, Py.dict_get; rewrite Hsame; cbn [known_fields In]; tauto.
Qed.

(** X6. A contact field that is null is a contact field left out:
    replacing [email_id] (or [phone_number]) by null changes nothing
    against deleting it.  Not so for [preferred_units]: a null there is
    never accepted. *)
Theorem subscribe_null_contact_is_absent (d : dict) (w : world St) :
  subscribe (JObj (<["email_id" := JNull]> d)) w
  = subscribe (JObj (delete "email_id" d)) w
  /\ subscribe (JObj (<["phone_number" := JNull]> d)) w
     = subscribe (JObj (delete "phone_number" d)) w
  /\ fst (subscribe (JObj (<["preferred_units" := JNull]> d)) w)
     <> Ok success_response.
Proof.
  split; [|split].
  - apply subscribe_same_reads; unfold field, Py.dict_get;
      rewrite ?lookup_insert_eq, ?lookup_delete_eq,
        ?lookup_insert_ne, ?lookup_delete_ne by done; reflexivity.
  - apply subscribe_same_reads; unfold field, Py.dict_get;
      rewrite ?lookup_insert_eq, ?lookup_delete_eq,
        ?lookup_insert_ne, ?lookup_delete_ne by done; reflexivity.
  - rewrite subscribe_dict.
    assert (Hv : units_valid (<["preferred_units" := JNull]> d) = false)
      by (unfold units_valid, units_of, Py.dict_get; rewrite lookup_insert_eq; reflexivity).
    rewrite Hv. cbn [negb].
    repeat match goal with
           | |- context [if ?b then _ else _] => destruct b
           end; cbn [fst]; intros Heq%Ok_inj;
      exact (error_response_not_success _ Heq).
Qed.

(** X7. The value of [location] is not looked at: whatever it is, the
    same check fails first and the same response goes out. *)
Theorem subscribe_location_not_validated
    (d : dict) (location location' : json) (w : world St) :
  first_failing (<["location" := location]> d) (store w)
  = first_failing (<["location" := location']> d) (store w)
  /\ fst (subscribe (JObj (<["location" := location]> d)) w)
     = fst (subscribe (JObj (<["location" := location']> d)) w).
Proof.
  assert (Hfirst : first_failing (<["location" := location]> d) (store w)
                   = first_failing (<["location" := location']> d) (store w)).
  { unfold first_failing, check_order. cbn [List.find passes].
    unfold has_required, required_fields, contact_given, methods_valid,
      units_valid, units_of, field, Py.dict_get. cbn [forallb].
    rewrite ?lookup_insert_eq, ?lookup_insert_ne by done.
    rewrite !(bool_decide_eq_true_2 (is_Some (Some _))) by eauto. reflexivity. }
  split; [exact Hfirst|].
  rewrite !subscribe_by_first_failing, Hfirst.
  destruct (first_failing (<["location" := location']> d) (store w)) as [[]|];
    reflexivity.
Qed.

(** X8. The calls of one [subscribe], on any body: none; or the count
    query alone, the store untouched; or the count query and then one
    insert of one row that carries the queried [user_id], followed by a
    print when the insert reported errors.  It never inserts without
    having counted that very id, and never reads the whole table. *)
Theorem subscribe_call_shape (data : json) (w : world St) :
  (snd (subscribe data w) = w)
  \/ (exists user_id,
        snd (subscribe data w) = log (EvQueryCount user_id) w)
  \/ (exists user_id row,
        row !! "user_id" = Some user_id
        /\ trace (snd (subscribe data w))
           = trace w ++ EvQueryCount user_id :: EvInsertRows [row] ::
               (if Py.truthy (JArr (fst (insert_rows_json (store w) [row])))
                then [EvPrint (fst (insert_rows_json (store w) [row]))] else [])
        /\ store (snd (subscribe data w)) = snd (insert_rows_json (store w) [row])).
Proof.
  destruct data as [| | | | | |d];
    try (left; rewrite subscribe_non_dict by (intros d; discriminate); reflexivity).
  rewrite subscribe_by_first_failing.
  destruct (first_failing d (store w)) as [c|] eqn:Hfirst.
  - destruct c; [left; reflexivity|right; left; eexists; reflexivity..].
  - right; right. exists (field d "user_id"), (row_of d). cbn [snd].
    apply first_failing_None in Hfirst.
    unfold passes_validation, check_order in Hfirst. cbn [forallb passes] in Hfirst.
    apply andb_prop in Hfirst as [Hreq _].
    apply has_required_lookups in Hreq as ([u Hu] & _).
    split; [rewrite (field_lookup _ _ _ Hu); unfold row_of;
            rewrite (field_lookup _ _ _ Hu); reflexivity|].
    rewrite saved_trace, saved_store. cbn [log store trace].
    rewrite <- app_assoc. split; reflexivity.
Qed.

(** X9. A request that is not accepted leaves no mark on the store: the
    store is the one before, [get_users] answers as before, and the same
    request sent again gets the same answer. *)
Theorem rejected_subscribe_leaves_no_mark (data : json) (w : world St) :
  fst (subscribe data w) <> Ok success_response ->
  store (snd (subscribe data w)) = store w
  /\ fst (get_users (snd (subscribe data w))) = fst (get_users w)
  /\ fst (subscribe data (snd (subscribe data w))) = fst (subscribe data w).
Proof.
  intros Hrej.
  assert (Hstore : store (snd (subscribe data w)) = store w).
  { destruct data as [| | | | | |d];
      try (rewrite subscribe_non_dict by (intros d; discriminate); reflexivity).
    revert Hrej. rewrite subscribe_by_first_failing.
    destruct (first_failing d (store w)) as [[]|]; cbn [fst snd];
      first [reflexivity | intros Hrej; destruct (Hrej eq_refl)]. }
  split; [exact Hstore|]. split.
  - rewrite !get_users_response, Hstore. reflexivity.
  - apply subscribe_store_only. exact Hstore.
Qed.

End Bodies_and_calls.

Section Concrete_bodies.
Import Scenarios Bodies.

Lemma subscribe_non_object_body_witness :
  (forall d, JArr [JStr "user_id"] <> JObj d)
  /\ snd (subscribe (JArr [JStr "user_id"]) (Mem.init [])) = Mem.init []
  /\ (fst (subscribe (JArr [JStr "user_id"]) (Mem.init [])) = Raise TypeError
      \/ fst (subscribe (JArr [JStr "user_id"]) (Mem.init []))
         = Ok (mkResponse (error_body missing_fields_msg) 400))
  /\ (fst (subscribe (JArr [JStr "user_id"]) (Mem.init []))
      = Ok (mkResponse (error_body missing_fields_msg) 400)
      <-> Py.all_in required_fields (JArr [JStr "user_id"]) = Ok false).
Proof.
  split; [intros d; discriminate|].
  apply (subscribe_non_object_body (JArr [JStr "user_id"]) (Mem.init [])).
  intros d; discriminate.
Defined.

Lemma subscribe_stored_row_witness :
  passes_validation u1_request (store (Mem.init [])) = true
  /\ exists row,
       inserts (trace (snd (subscribe (JObj u1_request) (Mem.init []))))
       = inserts (trace (Mem.init [])) ++ [[row]]
       /\ dom row = list_to_set known_fields
       /\ row !! "user_id" = u1_request !! "user_id"
       /\ row !! "location" = u1_request !! "location"
       /\ row !! "notification_method" = u1_request !! "notification_method"
       /\ row !! "email_id" = Some (Py.dict_get u1_request "email_id" JNull)
       /\ row !! "phone_number" = Some (Py.dict_get u1_request "phone_number" JNull)
       /\ row !! "preferred_units"
          = Some (Py.dict_get u1_request "preferred_units" (JStr "Celsius")).
Proof.
  split; [vm_compute; reflexivity|].
  apply (subscribe_stored_row u1_request (Mem.init [])). vm_compute; reflexivity.
Defined.

Lemma subscribe_reads_known_fields_witness :
  (forall key, In key known_fields -> u1_with_referrer !! key = u1_request !! key)
  /\ subscribe (JObj u1_with_referrer) (Mem.init [])
     = subscribe (JObj u1_request) (Mem.init []).
Proof.
  assert (Hsame : forall key, In key known_fields ->
                    u1_with_referrer !! key = u1_request !! key).
  { intros key Hin. cbn [known_fields In] in Hin.
    repeat (destruct Hin as [<-|Hin]; [vm_compute; reflexivity|]). destruct Hin. }
  split; [exact Hsame|].
  apply (subscribe_reads_known_fields u1_with_referrer u1_request (Mem.init []) Hsame).
Defined.

Lemma rejected_subscribe_leaves_no_mark_witness :
  fst (subscribe (JObj fax_request) (Mem.init [u1_row])) <> Ok success_response
  /\ store (snd (subscribe (JObj fax_request) (Mem.init [u1_row])))
     = store (Mem.init [u1_row])
  /\ fst (get_users (snd (subscribe (JObj fax_request) (Mem.init [u1_row]))))
     = fst (get_users (Mem.init [u1_row]))
  /\ fst (subscribe (JObj fax_request) (snd (subscribe (JObj fax_request) (Mem.init [u1_row]))))
     = fst (subscribe (JObj fax_request) (Mem.init [u1_row])).
Proof.
  assert (Hrej : fst (subscribe (JObj fax_request) (Mem.init [u1_row]))
                 <> Ok success_response).
  { intros Heq. apply (f_equal (fun r => match r with
                                         | Ok resp => status resp
                                         | Raise _ => 0
                                         end)) in Heq.
    vm_compute in Heq. discriminate Heq. }
  split; [exact Hrej|].
  apply (rejected_subscribe_leaves_no_mark (JObj fax_request) (Mem.init [u1_row]) Hrej).
Defined.

(** The methods of an accepted request. *)
Lemma subscribe_success_methods_witness :
  fst (subscribe (JObj u1_request) (Mem.init [])) = Ok success_response
  /\ exists methods,
       u1_request !! "notification_method" = Some (JArr methods)
       /\ Forall (fun method => method = JStr "email" \/ method = JStr "SMS") methods.
Proof.
  split; [vm_compute; reflexivity|].
  apply (subscribe_success_methods u1_request (Mem.init [])). vm_compute; reflexivity.
Defined.

End Concrete_bodies.

(** ** The scenarios of the service, run *)

Example scenario_1 :
  subscribe (JObj Scenarios.u1_request) (Mem.init [])
  = (Ok (mkResponse (message_body success_msg) 201),
     {| store := {| Mem.rows := [Scenarios.u1_row]; Mem.insert_errors := [] |};
        trace := [EvQueryCount (JStr "u1"); EvInsertRows [Scenarios.u1_row]] |}).
Proof. vm_compute. reflexivity. Qed.

Example scenario_2 :
  fst (subscribe (JObj Scenarios.u1_request) (Mem.init [Scenarios.u1_row]))
  = Ok (mkResponse (error_body duplicate_msg) 400).
Proof. vm_compute. reflexivity. Qed.

(** The request has no contact, and the contact check comes before the
    check of the methods. *)
Example scenario_3 :
  fst (subscribe (JObj Scenarios.fax_request) (Mem.init []))
  = Ok (mkResponse (error_body contact_msg) 400).
Proof. vm_compute. reflexivity. Qed.

Example scenario_4 :
  fst (subscribe (JObj Scenarios.no_location_request) (Mem.init []))
  = Ok (mkResponse (error_body missing_fields_msg) 400).
Proof. vm_compute. reflexivity. Qed.

(** Bodies that are not a dict: a number has no [in]; the empty list has
    none of the fields; a list that holds the three names passes the
    membership test and fails at [data["user_id"]]. *)
Example number_body :
  subscribe (JInt 7) (Mem.init []) = (Raise TypeError, Mem.init []).
Proof. reflexivity. Qed.

Example empty_list_body :
  subscribe (JArr []) (Mem.init [])
  = (Ok (mkResponse (error_body missing_fields_msg) 400), Mem.init []).
Proof. reflexivity. Qed.

Example list_of_names_body :
  subscribe (JArr [JStr "user_id"; JStr "location"; JStr "notification_method"])
    (Mem.init [])
  = (Raise TypeError, Mem.init []).
Proof. vm_compute. reflexivity. Qed.

Example string_body :
  subscribe (JStr "user_id, location, notification_method") (Mem.init [])
  = (Raise TypeError, Mem.init []).
Proof. vm_compute. reflexivity. Qed.
